(** * Draggable: a shallow embedding of src/Draggable.js

    The component is modelled as one mounted instance.  The refs of the
    component ([pan], [offsetFromStart], [childSize], [startBounds],
    [isDragging]) are fields of an explicit state, and every handler is a
    function from state to state.  Layout numbers are modelled as integers
    ([Z]).

    Props are an argument of every handler, as the closures of the render
    read them.  A re-render with new props is modelled by handing the next
    events other props.  The memoised [reversePosition]
    ([useCallback(..., [pan])], whose only dependency never changes) keeps
    the [onReverse] of the first render: that closure is the field
    [reverseFn] of the state, set at mount.  The other props read by the
    memoised handlers are listed in their dependencies, so a re-render that
    changes only [onReverse] is modelled exactly.  A change of
    [shouldReverse] also re-runs the [useEffect] that depends on it (event
    [EvSetShouldReverse]).

    The React Native collaborators are modelled as far as this code uses
    them:
    - [Animated.ValueXY]: a value and an offset per axis; [setValue] stops
      the running animation and calls the listeners with value + offset;
      [setOffset] and [flattenOffset] call no listener; [Animated.spring]
      starts an animation of the value towards [toValue], which writes the
      value (calling the listeners) at every frame and at its end; with
      [toValue: undefined] it throws a [TypeError] (it destructures
      [toValue] for the two axes) and starts nothing;
    - [PanResponder]: in the idle state a move event asks
      [shouldStartDrag] (capture and bubble ask the same function); when it
      answers true the responder is granted, and later move events carry the
      delta since the grant;
    - [TouchableOpacity] (rendered only without a [dragHandle]): it holds
      the touch from press-in unless [disabled]; once the long-press delay
      has passed with the touch held, a non-null [onLongPress] is called; a
      release it still holds fires [onPressOut] and then [onPress], unless
      [onLongPress] fired for this press; when the pan responder takes the
      touch over it receives [onPressOut]. *)

From Stdlib Require Import ZArith List Bool Lia.
Import ListNotations.
Open Scope Z_scope.

(** ** Data *)

Record Position := mkPos { px : Z; py : Z }.

Definition origin : Position := mkPos 0 0.

Record Rect := mkRect { left : Z; top : Z; right : Z; bottom : Z }.

(** Props.  A bound is [Some b] when [Number.isFinite(b)] holds.  The
    [onReverse] prop is [None] when absent, and [Some r] when it is a
    function returning [r] ([None] standing for [undefined] or [null]).
    [onDragRelease] and [onLongPress] record whether these props are
    truthy (their defaults [() => {}] are). *)
Record Props := mkProps {
  x : Z;
  y : Z;
  minX : option Z;
  minY : option Z;
  maxX : option Z;
  maxY : option Z;
  shouldReverse : bool;
  disabled : bool;
  onReverse : option (option Position);
  onDragRelease : bool;
  dragHandle : bool;
  renderSize : Z;
  onLongPress : bool
}.

(** The same props with another [onReverse]. *)
Definition with_onReverse (p : Props) (f : option (option Position)) : Props :=
  mkProps (x p) (y p) (minX p) (minY p) (maxX p) (maxY p) (shouldReverse p)
    (disabled p) f (onDragRelease p) (dragHandle p) (renderSize p) (onLongPress p).

(** [Animated.ValueXY]: [_value] and [_offset] of its two [Animated.Value]s. *)
Record AnimatedXY := mkAnim { vx : Z; vy : Z; ox : Z; oy : Z }.

(** [ValueXY.__getValue()]: value plus offset. *)
Definition pan_get (a : AnimatedXY) : Position :=
  mkPos (vx a + ox a) (vy a + oy a).

(** Callbacks fired by the component, in order. *)
Inductive Callback :=
| CbPressIn
| CbPressOut
| CbDrag (dx dy : Z) (start cur : Rect)
| CbDragRelease (start : option Rect) (cur : Rect)
| CbShortPressRelease
| CbLongPress
| CbRelease (dragged : bool).

Record State := mkState {
  pan : AnimatedXY;
  (** [toValue] of the running [Animated.spring], if one runs *)
  spring : option Position;
  (** whether the [addListener] callback on [pan] is registered *)
  listening : bool;
  offsetFromStart : Position;
  childSize : Position;
  startBounds : option Rect;
  isDragging : bool;
  (** [shouldReverse] of the current render *)
  sr : bool;
  (** whether the TouchableOpacity holds the touch *)
  pressed : bool;
  log : list Callback;
  (** the [onReverse] closed over by the memoised [reversePosition] *)
  reverseFn : option (option Position);
  (** whether [onLongPress] fired for the press held now *)
  longPressed : bool
}.

(** ** Pure helpers of the component *)

Definition far : Z := 999999999.

(** [function clamp(number, min, max)] *)
Definition clamp (number min max : Z) : Z := Z.max min (Z.min number max).

(** [Number.isFinite(b) ? b - edge : -far] *)
Definition lowerBound (b : option Z) (edge : Z) : Z :=
  match b with Some m => m - edge | None => - far end.

(** [Number.isFinite(b) ? b - edge : far] *)
Definition upperBound (b : option Z) (edge : Z) : Z :=
  match b with Some m => m - edge | None => far end.

(** The [changeX] / [changeY] computed by [handleOnDrag]. *)
Definition handleOnDrag_change (p : Props) (sb : Rect) (dx dy : Z) : Position :=
  mkPos (clamp dx (lowerBound (minX p) (left sb)) (upperBound (maxX p) (right sb)))
        (clamp dy (lowerBound (minY p) (top sb)) (upperBound (maxY p) (bottom sb))).

(** [shouldStartDrag(gs)] *)
Definition shouldStartDrag (p : Props) (dx dy : Z) : bool :=
  negb (disabled p) && ((Z.abs dx >? 2) || (Z.abs dy >? 2)).

(** [getBounds()] *)
Definition getBounds (p : Props) (s : State) : Rect :=
  let l := x p + px (offsetFromStart s) in
  let t := y p + py (offsetFromStart s) in
  mkRect l t (l + px (childSize s)) (t + py (childSize s)).

(** The [toValue] chosen by [reversePosition]:
    [newOffset = onReverse ? onReverse() : originalOffset] and then
    [newOffset || originalOffset]. *)
Definition reverseTarget (onRev : option (option Position)) : Position :=
  let newOffset := match onRev with Some r => r | None => Some origin end in
  match newOffset with Some v => v | None => origin end.

(** ** State updates *)

Definition set_pan (s : State) (v : AnimatedXY) : State :=
  match s with mkState a t l o c b d r q g f h => mkState v t l o c b d r q g f h end.

Definition set_spring (s : State) (v : option Position) : State :=
  match s with mkState a t l o c b d r q g f h => mkState a v l o c b d r q g f h end.

Definition set_listening (s : State) (v : bool) : State :=
  match s with mkState a t l o c b d r q g f h => mkState a t v o c b d r q g f h end.

Definition set_offsetFromStart (s : State) (v : Position) : State :=
  match s with mkState a t l o c b d r q g f h => mkState a t l v c b d r q g f h end.

Definition set_childSize (s : State) (v : Position) : State :=
  match s with mkState a t l o c b d r q g f h => mkState a t l o v b d r q g f h end.

Definition set_startBounds (s : State) (v : option Rect) : State :=
  match s with mkState a t l o c b d r q g f h => mkState a t l o c v d r q g f h end.

Definition set_isDragging (s : State) (v : bool) : State :=
  match s with mkState a t l o c b d r q g f h => mkState a t l o c b v r q g f h end.

Definition set_sr (s : State) (v : bool) : State :=
  match s with mkState a t l o c b d r q g f h => mkState a t l o c b d v q g f h end.

Definition set_pressed (s : State) (v : bool) : State :=
  match s with mkState a t l o c b d r q g f h => mkState a t l o c b d r v g f h end.

Definition set_longPressed (s : State) (v : bool) : State :=
  match s with mkState a t l o c b d r q g f h => mkState a t l o c b d r q g f v end.

Definition emit (s : State) (cs : list Callback) : State :=
  match s with mkState a t l o c b d r q g f h => mkState a t l o c b d r q (g ++ cs) f h end.

(** ** [Animated.ValueXY] operations *)

(** The pan listener registered by the effect:
    [(c) => { offsetFromStart.current = c; }]. *)
Definition callListeners (s : State) : State :=
  if listening s then set_offsetFromStart s (pan_get (pan s)) else s.

(** [pan.current.setValue(v)]: stops the running animation, writes the
    value and calls the listeners. *)
Definition setValue (s : State) (v : Position) : State :=
  let a := pan s in
  callListeners (set_spring (set_pan s (mkAnim (px v) (py v) (ox a) (oy a))) None).

(** [pan.current.setOffset(o)] *)
Definition setOffset (s : State) (o : Position) : State :=
  let a := pan s in set_pan s (mkAnim (vx a) (vy a) (px o) (py o)).

(** [pan.current.flattenOffset()] *)
Definition flattenOffset (s : State) : State :=
  let a := pan s in set_pan s (mkAnim (vx a + ox a) (vy a + oy a) 0 0).

(** A frame of the running spring: the value is written and the listeners
    are called; the animation goes on. *)
Definition springFrame (s : State) (v : Position) : State :=
  let a := pan s in
  match spring s with
  | Some _ => callListeners (set_pan s (mkAnim (px v) (py v) (ox a) (oy a)))
  | None => s
  end.

(** [Animated.spring(pan.current, {toValue: t, ...}).start()] for a
    defined [t]. *)
Definition startSpring (s : State) (t : Position) : State :=
  set_spring s (Some t).

(** [reversePosition()]: reads the [onReverse] it closed over. *)
Definition reversePosition (s : State) : State :=
  startSpring s (reverseTarget (reverseFn s)).

(** [animateTo(offset, callback)]: [offset] is [None] when [undefined];
    the result [None] is the [TypeError] thrown by [Animated.spring]. *)
Definition animateTo (s : State) (offset : option Position) : option State :=
  match offset with
  | Some v => Some (startSpring s v)
  | None => None
  end.

(** ** Handlers *)

(** The TouchableOpacity is rendered (no [dragHandle]) and not disabled. *)
Definition touchable_active (p : Props) : bool :=
  negb (dragHandle p) && negb (disabled p).

(** [handlePressOut(event)] *)
Definition handlePressOut (s : State) : State :=
  emit s (CbPressOut :: (if isDragging s then [] else [CbRelease false])).

(** [onPanResponderGrant] *)
Definition onPanResponderGrant (p : Props) (s : State) : State :=
  let s1 := set_isDragging (set_startBounds s (Some (getBounds p s))) true in
  if negb (sr s1) then setValue (setOffset s1 (offsetFromStart s1)) origin
  else s1.

(** The pan responder takes the touch over: the grant, then the
    termination of the TouchableOpacity if it held the touch. *)
Definition grant (p : Props) (s : State) : State :=
  let s1 := onPanResponderGrant p s in
  if pressed s1 then handlePressOut (set_pressed s1 false) else s1.

(** [handleOnDrag(e, gestureState)] *)
Definition handleOnDrag (p : Props) (s : State) (dx dy : Z) : State :=
  match startBounds s with
  | Some sb =>
      let s1 := setValue s (handleOnDrag_change p sb dx dy) in
      emit s1 [CbDrag dx dy sb (getBounds p s1)]
  | None => s
  end.

(** [onPanResponderRelease(e, gestureState)] *)
Definition onPanResponderRelease (p : Props) (s : State) : State :=
  let s1 := set_isDragging s false in
  let s2 := if negb (sr s1) then flattenOffset s1 else reversePosition s1 in
  if onDragRelease p
  then emit s2 [CbDragRelease (startBounds s2) (getBounds p s2); CbRelease true]
  else s2.

(** The long-press delay passes while the TouchableOpacity holds the
    touch: a non-null [onLongPress] is called, once per press. *)
Definition touchableLongPress (p : Props) (s : State) : State :=
  if pressed s && onLongPress p && negb (longPressed s)
  then emit (set_longPressed s true) [CbLongPress]
  else s.

(** A release of the TouchableOpacity that still holds the touch:
    [onPressOut] (that is [handlePressOut]) and then [onPress], which a
    long press of this touch cancels. *)
Definition touchableRelease (s : State) : State :=
  let s1 := handlePressOut (set_pressed s false) in
  if longPressed s then s1 else emit s1 [CbShortPressRelease].

(** The [useEffect] depending on [shouldReverse], run at mount
    ([afterRender] only hands [animateTo] out, see [EvAnimateTo]). *)
Definition runEffect (s : State) : State :=
  if negb (sr s) then set_listening s true else reversePosition s.

Inductive Event :=
| EvPressIn
| EvMove (dx dy : Z)
| EvRelease
| EvLongPressDelay
| EvLayout (w h : Z)
| EvAnimateTo (offset : option Position)
| EvSpringFrame (v : Position)
| EvSpringSettle
| EvSetShouldReverse (b : bool).

Definition step (p : Props) (s : State) (e : Event) : State :=
  match e with
  | EvPressIn =>
      if touchable_active p
      then emit (set_longPressed (set_pressed s true) false) [CbPressIn]
      else s
  | EvMove dx dy =>
      if isDragging s then handleOnDrag p s dx dy
      else if shouldStartDrag p dx dy then grant p s
      else s
  | EvRelease =>
      if isDragging s then onPanResponderRelease p s
      else if pressed s then touchableRelease s
      else s
  | EvLongPressDelay => touchableLongPress p s
  | EvLayout w h => set_childSize s (mkPos w h)
  | EvAnimateTo o =>
      (* a thrown error reaches the caller and changes nothing *)
      match animateTo s o with Some s' => s' | None => s end
  | EvSpringFrame v => springFrame s v
  | EvSpringSettle =>
      (* the spring writes its target and ends, calling listeners *)
      match spring s with
      | Some t => setValue s t
      | None => s
      end
  | EvSetShouldReverse b =>
      if Bool.eqb b (sr s) then s
      else (* cleanup: removeAllListeners, then the effect again *)
        runEffect (set_sr (set_listening s false) b)
  end.

Definition init (p : Props) : State :=
  runEffect
    (mkState (mkAnim 0 0 0 0) None false origin
       (mkPos (renderSize p) (renderSize p)) None false (shouldReverse p) false []
       (onReverse p) false).

Definition run (p : Props) (s : State) (evs : list Event) : State :=
  fold_left (step p) evs s.

(** The rectangles a callback reports. *)
Definition cb_rects (c : Callback) : list Rect :=
  match c with
  | CbDrag _ _ sb cur => [sb; cur]
  | CbDragRelease (Some sb) cur => [sb; cur]
  | CbDragRelease None cur => [cur]
  | _ => []
  end.

(** A move event per cumulative delta. *)
Definition moves (ds : list (Z * Z)) : list Event :=
  map (fun d => EvMove (fst d) (snd d)) ds.

(** The sizes measured by the layout events of [evs]. *)
Definition layout_sizes (evs : list Event) : list Position :=
  flat_map (fun e => match e with EvLayout w h => [mkPos w h] | _ => [] end) evs.

(** A rectangle at the base position [(x, y)] shifted by [o], whose size
    is one of [S]. *)
Definition sized_at (p : Props) (o : Position) (S : list Position) (r : Rect) : Prop :=
  left r = x p + px o /\ top r = y p + py o /\
  exists c, In c S /\ right r = left r + px c /\ bottom r = top r + py c.

(** ** The debug overlay *)

(** A JavaScript number as a bound prop may hold it. *)
Inductive JSNum := JFin (z : Z) | JPosInf | JNegInf | JNaN.

(** [Number.isFinite(b)] with the value it lets through: the view of a
    bound that [handleOnDrag] has ([None] for [undefined] too). *)
Definition finite (b : option JSNum) : option Z :=
  match b with Some (JFin z) => Some z | _ => None end.

(** JavaScript truthiness of a bound: [undefined], [0] and [NaN] are
    falsy, the infinities are truthy. *)
Definition truthy (b : option JSNum) : bool :=
  match b with
  | Some (JFin z) => negb (z =? 0)
  | Some JPosInf | Some JNegInf => true
  | Some JNaN | None => false
  end.

(** [w - b] for a finite [w]. *)
Definition js_sub (w : Z) (b : JSNum) : JSNum :=
  match b with
  | JFin z => JFin (w - z)
  | JPosInf => JNegInf
  | JNegInf => JPosInf
  | JNaN => JNaN
  end.

(** The four bound props as the component receives them. *)
Record RawBounds := mkRaw {
  rminX : option JSNum; rminY : option JSNum;
  rmaxX : option JSNum; rmaxY : option JSNum
}.

(** The [left], [right], [top], [bottom] style of the debug [View]. *)
Record DebugStyle := mkDebug {
  dbg_left : JSNum; dbg_right : JSNum; dbg_top : JSNum; dbg_bottom : JSNum
}.

(** [getDebugView()] for a window of [width] by [height]; [None] is the
    [null] it returns when no bound is truthy. *)
Definition getDebugView (width height : Z) (rb : RawBounds) : option DebugStyle :=
  let far := 9999 in
  let constrained :=
    truthy (rminX rb) || truthy (rmaxX rb) || truthy (rminY rb) || truthy (rmaxY rb) in
  if negb constrained then None
  else
    let left := match rminX rb with
                | Some b => if truthy (rminX rb) then b else JFin (- far)
                | None => JFin (- far) end in
    let right := match rmaxX rb with
                 | Some b => if truthy (rmaxX rb) then js_sub width b else JFin (- far)
                 | None => JFin (- far) end in
    let top := match rminY rb with
               | Some b => if truthy (rminY rb) then b else JFin (- far)
               | None => JFin (- far) end in
    let bottom := match rmaxY rb with
                  | Some b => if truthy (rmaxY rb) then js_sub height b else JFin (- far)
                  | None => JFin (- far) end in
    Some (mkDebug left right top bottom).

(** The props seen by the clamp agree with the raw bounds. *)
Definition bounds_of (rb : RawBounds) (p : Props) : Prop :=
  minX p = finite (rminX rb) /\ minY p = finite (rminY rb) /\
  maxX p = finite (rmaxX rb) /\ maxY p = finite (rmaxY rb).

(** ** Predicates used by the invariants *)




(** Events that may come while a drag goes on and a move follows. *)
Definition move_or_layout (e : Event) : bool :=
  match e with EvMove _ _ | EvLayout _ _ => true | _ => false end.


(** The state of a mount in reverse mode with the mirrored offset frozen at
    [o]: no listener; every size measured so far is one of [S]; the start
    rectangle is [sb0] or one captured in this mode, and while dragging it
    is one captured in this mode. *)
Definition rev_inv (p : Props) (o : Position) (sb0 : option Rect)
    (S : list Position) (s : State) : Prop :=
  sr s = true /\ listening s = false /\ offsetFromStart s = o /\
  In (childSize s) S /\
  (startBounds s = sb0 \/ exists r, startBounds s = Some r /\ sized_at p o S r) /\
  (isDragging s = true -> exists r, startBounds s = Some r /\ sized_at p o S r).

(** ** Concrete props *)

(** [Draggable.defaultProps]. *)
Definition defaultProps : Props :=
  mkProps 0 0 None None None None false false None true false 36 true.

(** Defaults with [maxX = 100] and the given [shouldReverse]. *)
Definition maxX100Props (b : bool) : Props :=
  mkProps 0 0 None None (Some 100) None b false None true false 36 true.

Example clamp_inside : clamp 5 0 10 = 5.
Proof. reflexivity. Qed.

Example clamp_crossed_bounds : clamp 5 0 (-26) = 0.
Proof. reflexivity. Qed.

(** Unfolds the handlers down to the state updates. *)
Ltac unfold_ops :=
  unfold grant, onPanResponderGrant, onPanResponderRelease, handleOnDrag,
    touchableRelease, touchableLongPress, handlePressOut, runEffect,
    reversePosition, animateTo, startSpring, setValue, setOffset, flattenOffset,
    springFrame, callListeners, emit,
    set_pan, set_spring, set_listening, set_offsetFromStart, set_childSize,
    set_startBounds, set_isDragging, set_sr, set_pressed, set_longPressed.

(** The four fields of [rev_inv] that a step in reverse mode keeps. *)
Ltac rev_fields :=
  split; [reflexivity|]; split; [reflexivity|]; split; [reflexivity|];
  split; [assumption|].

(** Splits every [if] and [match] left in the goal after [unfold_ops]. *)
Ltac split_ifs :=
  repeat match goal with
  | |- context [match match ?o with Some _ => _ | None => _ end with
                | Some _ => _ | None => _ end] => destruct o; simpl
  | |- context [if ?b then _ else _] => destruct b eqn:?
  | |- context [match ?o with Some _ => _ | None => _ end] => destruct o eqn:?
  end.

(** ** Lemmas on the clamp *)

Lemma clamp_ge_min (n lo hi : Z) : lo <= clamp n lo hi.
Proof. unfold clamp; lia. Qed.

Lemma clamp_le_max (n lo hi : Z) : lo <= hi -> clamp n lo hi <= hi.
Proof. unfold clamp; lia. Qed.

Lemma clamp_id (n lo hi : Z) : lo <= n <= hi -> clamp n lo hi = n.
Proof. unfold clamp; lia. Qed.

(** One axis of [handleOnDrag]: a delta [d] clamped against the bound [lo]
    for the near edge [l] and the bound [hi] for the far edge [r]. *)
Lemma clamp_axis_edges (lo hi : option Z) (l r d : Z) :
  let c := clamp d (lowerBound lo l) (upperBound hi r) in
  (forall m, lo = Some m -> m <= l + c) /\
  (forall M, hi = Some M -> lowerBound lo l <= M - r -> r + c <= M) /\
  (forall m M, lo = Some m -> hi = Some M -> l <= r -> r - l <= M - m ->
     m <= l + c /\ l + c <= r + c /\ r + c <= M) /\
  (forall m M, lo = Some m -> hi = Some M -> M - m < r - l ->
     l + c = m /\ M < r + c) /\
  (forall m, lo = Some m -> hi = None -> m <= l + d -> d <= far -> c = d) /\
  (forall M, lo = None -> hi = Some M -> r + d <= M -> - far <= d -> c = d).
Proof.
  cbv zeta; unfold clamp.
  split; [|split; [|split; [|split; [|split]]]].
  - intros m ->; simpl; lia.
  - intros M -> Hle; simpl in *; lia.
  - intros m M -> -> Hlr Hw; simpl; lia.
  - intros m M -> -> Hw; simpl; lia.
  - intros m -> -> H1 H2; simpl; unfold far in *; lia.
  - intros M -> -> H1 H2; simpl; unfold far in *; lia.
Qed.


(** ** Claims on the clamp *)

(** C1 (as stated, refuted): with both bounds defined, an element wider
    than [maxX - minX] (here 36 against [0, 10]) cannot be clamped into the
    bounds: the lower bound wins and the right edge ends at 36. *)
Lemma C1_counterexample :
  let p := mkProps 0 0 (Some 0) None (Some 10) None false false None true false 36 true in
  let sb := mkRect 0 0 36 36 in
  let c := handleOnDrag_change p sb 0 0 in
  ~ (0 <= left sb + px c /\ right sb + px c <= 10).
Proof. vm_compute. intros [_ H]. apply H. reflexivity. Qed.

(** C1 (amended): on each axis of [handleOnDrag], with [c] the clamped
    delta applied to the start rectangle [sb]:
    - a defined lower bound always holds for the near edge (left, top);
    - a defined upper bound holds for the far edge (right, bottom) whenever
      the lower delta bound does not exceed the upper one;
    - with both bounds defined and a start rectangle of non-negative extent
      at most [max - min], both edges lie in [[min, max]];
    - with both bounds defined and a start rectangle wider than
      [max - min], the near edge is put exactly on [min] and the far edge
      ends beyond [max];
    - with one bound defined only, every delta that keeps the bounded edge
      within its bound and stays within the sentinel [far] on the other
      side is kept unchanged. *)
Theorem C1_clamp_edges (p : Props) (sb : Rect) (dx dy : Z) :
  let c := handleOnDrag_change p sb dx dy in
  ((forall m, minX p = Some m -> m <= left sb + px c) /\
   (forall M, maxX p = Some M ->
      lowerBound (minX p) (left sb) <= M - right sb -> right sb + px c <= M) /\
   (forall m M, minX p = Some m -> maxX p = Some M ->
      left sb <= right sb -> right sb - left sb <= M - m ->
      m <= left sb + px c /\ left sb + px c <= right sb + px c /\ right sb + px c <= M) /\
   (forall m M, minX p = Some m -> maxX p = Some M -> M - m < right sb - left sb ->
      left sb + px c = m /\ M < right sb + px c) /\
   (forall m, minX p = Some m -> maxX p = None -> m <= left sb + dx -> dx <= far ->
      px c = dx) /\
   (forall M, minX p = None -> maxX p = Some M -> right sb + dx <= M -> - far <= dx ->
      px c = dx)) /\
  ((forall m, minY p = Some m -> m <= top sb + py c) /\
   (forall M, maxY p = Some M ->
      lowerBound (minY p) (top sb) <= M - bottom sb -> bottom sb + py c <= M) /\
   (forall m M, minY p = Some m -> maxY p = Some M ->
      top sb <= bottom sb -> bottom sb - top sb <= M - m ->
      m <= top sb + py c /\ top sb + py c <= bottom sb + py c /\ bottom sb + py c <= M) /\
   (forall m M, minY p = Some m -> maxY p = Some M -> M - m < bottom sb - top sb ->
      top sb + py c = m /\ M < bottom sb + py c) /\
   (forall m, minY p = Some m -> maxY p = None -> m <= top sb + dy -> dy <= far ->
      py c = dy) /\
   (forall M, minY p = None -> maxY p = Some M -> bottom sb + dy <= M -> - far <= dy ->
      py c = dy)).
Proof.
  cbv zeta; unfold handleOnDrag_change; simpl.
  split; apply clamp_axis_edges.
Qed.

(** Witness of [C1_clamp_edges]: bounds [[0, 100]] on both axes, a 36-unit
    square at the origin dragged by (80, -20). *)
Lemma C1_clamp_edges_witness :
  let p := mkProps 0 0 (Some 0) (Some 0) (Some 100) (Some 100) false false None true false 36 true in
  let sb := mkRect 0 0 36 36 in
  px (handleOnDrag_change p sb 80 (-20)) = 64 /\
  (0 <= left sb + px (handleOnDrag_change p sb 80 (-20)) /\
   left sb + px (handleOnDrag_change p sb 80 (-20)) <= right sb + px (handleOnDrag_change p sb 80 (-20)) /\
   right sb + px (handleOnDrag_change p sb 80 (-20)) <= 100).
Proof.
  cbv zeta.
  split; [reflexivity|].
  destruct (C1_clamp_edges
              (mkProps 0 0 (Some 0) (Some 0) (Some 100) (Some 100) false false None true false 36 true)
              (mkRect 0 0 36 36) 80 (-20)) as [[_ [_ [H _]]] _].
  apply (H 0 100); [reflexivity | reflexivity | simpl; lia | simpl; lia].
Defined.




(** C3: base (0, 0), size 36, only [maxX = 100]: the grant captures the
    start rectangle (0, 0, 36, 36), and a later move by (80, 0) is clamped
    to (64, 0), written into the pan value, whatever [shouldReverse] is. *)
Theorem C3_scenario (b : bool) :
  let p := maxX100Props b in
  let s := run p (init p) [EvMove 3 0; EvMove 80 0] in
  startBounds s = Some (mkRect 0 0 36 36) /\
  upperBound (maxX p) 36 = 64 /\
  handleOnDrag_change p (mkRect 0 0 36 36) 80 0 = mkPos 64 0 /\
  vx (pan s) = 64 /\ vy (pan s) = 0.
Proof. destruct b; vm_compute; repeat split. Qed.

(** ** The state machine *)

Lemma run_app (p : Props) (s : State) (e1 e2 : list Event) :
  run p s (e1 ++ e2) = run p (run p s e1) e2.
Proof. unfold run; apply fold_left_app. Qed.

Lemma run_cons (p : Props) (s : State) (e : Event) (es : list Event) :
  run p s (e :: es) = run p (step p s e) es.
Proof. reflexivity. Qed.


(** ** The memoised [reversePosition] *)

Lemma step_reverseFn (p : Props) (s : State) (e : Event) :
  reverseFn (step p s e) = reverseFn s.
Proof.
  destruct s as [pa spr lis ofs cs sb dr srv prs lg rf lp].
  destruct e; unfold step; unfold_ops; simpl; split_ifs; simpl; reflexivity.
Qed.

Lemma run_reverseFn (p : Props) (s : State) (evs : list Event) :
  reverseFn (run p s evs) = reverseFn s.
Proof.
  revert s; induction evs as [|e evs IH]; intros s; [reflexivity|].
  rewrite run_cons, IH; apply step_reverseFn.
Qed.

Lemma init_reverseFn (p : Props) : reverseFn (init p) = onReverse p.
Proof. unfold init, runEffect; destruct (shouldReverse p); reflexivity. Qed.

(** No handler but the memoised [reversePosition] reads [onReverse], and
    that one reads it from the state. *)
Lemma step_with_onReverse (p : Props) (f : option (option Position)) (s : State) (e : Event) :
  step (with_onReverse p f) s e = step p s e.
Proof. destruct p, e; reflexivity. Qed.

(** A release in reverse mode springs towards the target of the closed-over
    [onReverse]. *)
Lemma release_reverse_spring (p : Props) (s : State) :
  isDragging s = true -> sr s = true ->
  spring (step p s EvRelease) = Some (reverseTarget (reverseFn s)).
Proof.
  destruct s as [pa spr lis ofs cs sb dr srv prs lg rf lp]; simpl.
  intros -> ->.
  unfold step, onPanResponderRelease; unfold_ops; simpl.
  destruct (onDragRelease p); reflexivity.
Qed.

(** C5 (a defect): the release of a drag in reverse mode springs to the
    value of the [onReverse] of the first render ((0, 0) when that prop was
    absent or returned [undefined]): [reversePosition] is memoised with
    [[pan]] as its only dependency.  A re-render that passes another
    [onReverse] changes nothing at all: every handler behaves as before,
    and the release ignores the value the new function returns. *)
Theorem C5_stale_onReverse (p : Props) (f : option (option Position))
    (evs evs' : list Event) :
  let q := with_onReverse p f in
  let s := run q (run p (init p) evs) evs' in
  (forall e, step q s e = step p s e) /\
  (isDragging s = true -> sr s = true ->
     spring (step q s EvRelease) =
       Some (match onReverse p with Some (Some v) => v | _ => origin end)).
Proof.
  cbv zeta. split.
  - intros e; apply step_with_onReverse.
  - intros Hd Hr.
    rewrite (release_reverse_spring _ _ Hd Hr).
    rewrite !run_reverseFn, init_reverseFn.
    unfold reverseTarget; destruct (onReverse p) as [[v|]|]; reflexivity.
Qed.

(** Witness of [C5_stale_onReverse]: mounted with [shouldReverse] and no
    [onReverse], re-rendered with [onReverse = () => ({x: 50, y: 50})],
    dragged by (40, 40) and released: the spring goes to (0, 0). *)
Lemma C5_stale_onReverse_witness :
  let p := mkProps 0 0 None None None None true false None true false 36 true in
  let f := Some (Some (mkPos 50 50)) in
  let s := run (with_onReverse p f) (run p (init p) []) [EvMove 3 0; EvMove 40 40] in
  reverseTarget f = mkPos 50 50 /\
  spring (step (with_onReverse p f) s EvRelease) = Some origin.
Proof.
  cbv zeta. split; [reflexivity|].
  apply (proj2 (C5_stale_onReverse (mkProps 0 0 None None None None true false None true false 36 true)
                  (Some (Some (mkPos 50 50))) [] [EvMove 3 0; EvMove 40 40]));
    reflexivity.
Defined.

(** C6: from the idle state a move with [|dx| <= 2] and [|dy| <= 2], or any
    move while [disabled], leaves the machine idle; when not disabled a move
    with [|dx| = 3] and [dy = 0] grants the drag. *)
Theorem C6_drag_threshold (p : Props) (s : State) :
  isDragging s = false ->
  (forall dx dy, (Z.abs dx <= 2 /\ Z.abs dy <= 2) \/ disabled p = true ->
     isDragging (step p s (EvMove dx dy)) = false) /\
  (disabled p = false ->
     isDragging (step p s (EvMove 3 0)) = true /\
     isDragging (step p s (EvMove (-3) 0)) = true).
Proof.
  intros Hd. split.
  - intros dx dy H. unfold step; rewrite Hd.
    replace (shouldStartDrag p dx dy) with false; [exact Hd|].
    unfold shouldStartDrag.
    destruct H as [[Hx Hy] | Hdis].
    + rewrite !Z.gtb_ltb.
      replace (2 <? Z.abs dx) with false by (symmetry; apply Z.ltb_ge; lia).
      replace (2 <? Z.abs dy) with false by (symmetry; apply Z.ltb_ge; lia).
      destruct (negb (disabled p)); reflexivity.
    + rewrite Hdis; reflexivity.
  - intros Hdis.
    destruct s as [pa spr lis ofs cs sb dr srv prs lg rf lp]; simpl in Hd; subst dr.
    unfold step, shouldStartDrag; rewrite Hdis; simpl.
    unfold_ops; simpl.
    split; destruct srv, prs, lis; reflexivity.
Qed.

(** Witness of [C6_drag_threshold] at the default props from mount. *)
Lemma C6_drag_threshold_witness :
  isDragging (step defaultProps (init defaultProps) (EvMove 2 (-2))) = false /\
  isDragging (step defaultProps (init defaultProps) (EvMove 3 0)) = true.
Proof.
  destruct (C6_drag_threshold defaultProps (init defaultProps) eq_refl) as [H1 H2].
  split; [apply H1; left; simpl; lia | apply H2; reflexivity].
Defined.

(** C7 (a defect): [animateTo(undefined)] hands [toValue: undefined] to
    [Animated.spring], which throws a [TypeError]: no spring starts and
    the state is left as it was, while [animateTo] with a defined target
    starts the spring towards it.  Its sibling [reversePosition] falls back
    to (0, 0) when [onReverse] returns [undefined] or is absent. *)
Theorem C7_animateTo_undefined (p : Props) (s : State) :
  animateTo s None = None /\
  step p s (EvAnimateTo None) = s /\
  (forall v, spring (step p s (EvAnimateTo (Some v))) = Some v) /\
  spring (reversePosition s) = Some (reverseTarget (reverseFn s)) /\
  reverseTarget (Some None) = origin /\ reverseTarget None = origin.
Proof.
  destruct s; repeat split.
Qed.










(** ** Reverse mode *)

Lemma sized_at_incl (p : Props) (o : Position) (S S' : list Position) (r : Rect) :
  incl S S' -> sized_at p o S r -> sized_at p o S' r.
Proof.
  intros Hi (H1 & H2 & c & Hc & H3 & H4).
  split; [exact H1|]. split; [exact H2|]. exists c; auto.
Qed.

Lemma rects_incl (p : Props) (o : Position) (S S' : list Position) (cs : list Callback) :
  incl S S' ->
  Forall (fun c => Forall (sized_at p o S) (cb_rects c)) cs ->
  Forall (fun c => Forall (sized_at p o S') (cb_rects c)) cs.
Proof.
  intros Hi H; eapply Forall_impl; [|exact H].
  intros c Hc; eapply Forall_impl; [|exact Hc].
  intros r; apply sized_at_incl, Hi.
Qed.

Lemma rev_inv_incl (p : Props) (o : Position) (sb0 : option Rect)
    (S S' : list Position) (s : State) :
  incl S S' -> rev_inv p o sb0 S s -> rev_inv p o sb0 S' s.
Proof.
  intros Hi (H1 & H2 & H3 & H4 & H5 & H6).
  split; [exact H1|]. split; [exact H2|]. split; [exact H3|].
  split; [apply Hi, H4|]. split.
  - destruct H5 as [H5 | (r & Hr & Hs)]; [left; exact H5|].
    right; exists r; split; [exact Hr | eapply sized_at_incl; eauto].
  - intros Hd; destruct (H6 Hd) as (r & Hr & Hs).
    exists r; split; [exact Hr | eapply sized_at_incl; eauto].
Qed.

Lemma getBounds_sized (p : Props) (s : State) (S : list Position) :
  In (childSize s) S -> sized_at p (offsetFromStart s) S (getBounds p s).
Proof.
  intros H; unfold getBounds, sized_at; simpl.
  split; [reflexivity|]. split; [reflexivity|].
  exists (childSize s); auto.
Qed.

(** One step in reverse mode keeps the mirrored offset frozen, and every
    rectangle it captures or reports sits at the shifted base with a
    measured size. *)
Lemma step_rev_inv (p : Props) (o : Position) (sb0 : option Rect)
    (S : list Position) (s : State) (e : Event) :
  e <> EvSetShouldReverse false -> rev_inv p o sb0 S s ->
  rev_inv p o sb0 (S ++ layout_sizes [e]) (step p s e) /\
  exists cs, log (step p s e) = log s ++ cs /\
    Forall (fun c => Forall (sized_at p o (S ++ layout_sizes [e])) (cb_rects c)) cs.
Proof.
  intros He Hinv.
  assert (Hs0 : In (childSize s) S) by apply Hinv.
  assert (Hg : sized_at p o S (getBounds p s)).
  { destruct Hinv as (_ & _ & H3 & _); rewrite <- H3; apply getBounds_sized, Hs0. }
  destruct Hinv as (H1 & H2 & H3 & H4 & H5 & H6).
  destruct s as [pa spr lis ofs cs sb dr srv prs lg rf lp]; simpl in *; subst srv lis ofs.
  destruct e as [| dx dy | | | w h | o' | v | | [|]];
    try (exfalso; apply He; reflexivity); simpl layout_sizes; rewrite ?app_nil_r.
  - (* press-in *)
    unfold step; destruct (touchable_active p); unfold_ops; simpl.
    + split; [rev_fields; split; assumption|].
      exists [CbPressIn]; split; [reflexivity | repeat constructor].
    + split; [rev_fields; split; assumption|].
      (exists (@nil Callback); split; [symmetry; apply app_nil_r | apply Forall_nil]).
  - destruct dr.
    + (* a move while dragging *)
      destruct (H6 eq_refl) as (r & Hr & Hsr); simpl in Hr; subst sb.
      unfold step; simpl; unfold handleOnDrag; unfold_ops; simpl.
      split; [rev_fields; split; [right; exists r; auto | intros _; exists r; auto]|].
      exists [CbDrag dx dy r (getBounds p (mkState pa spr false o cs (Some r) true true prs lg rf lp))].
      split; [reflexivity|].
      cbn [cb_rects]; repeat (apply Forall_cons || apply Forall_nil); cbn [cb_rects];
        repeat (apply Forall_cons || apply Forall_nil); first [exact Hsr | exact Hg].
    + unfold step; simpl.
      destruct (shouldStartDrag p dx dy).
      * (* the grant *)
        unfold grant, onPanResponderGrant; unfold_ops; simpl.
        destruct prs; simpl; (split;
          [ rev_fields; split; [right | intros _]; eexists; split;
            [reflexivity | exact Hg | reflexivity | exact Hg] |]).
        -- exists [CbPressOut]; split; [reflexivity | repeat constructor].
        -- (exists (@nil Callback); split; [symmetry; apply app_nil_r | apply Forall_nil]).
      * split; [rev_fields; split; assumption|].
        (exists (@nil Callback); split; [symmetry; apply app_nil_r | apply Forall_nil]).
  - destruct dr.
    + (* the release of a drag: the spring back *)
      destruct (H6 eq_refl) as (r & Hr & Hsr); simpl in Hr; subst sb.
      unfold step; simpl; unfold onPanResponderRelease; unfold_ops; simpl.
      destruct (onDragRelease p); simpl;
        (split; [rev_fields; split; [right; exists r; auto | discriminate]|]).
      * eexists; split; [reflexivity|].
        cbn [cb_rects]; repeat (apply Forall_cons || apply Forall_nil); cbn [cb_rects];
          repeat (apply Forall_cons || apply Forall_nil); first [exact Hsr | exact Hg].
      * (exists (@nil Callback); split; [symmetry; apply app_nil_r | apply Forall_nil]).
    + unfold step; simpl.
      destruct prs; unfold touchableRelease; unfold_ops; simpl;
        [destruct lp; simpl|];
        (split; [rev_fields; split; assumption|]);
        first [ exists (@nil Callback); split; [symmetry; apply app_nil_r | apply Forall_nil]
              | rewrite <- ?app_assoc; eexists; split; [reflexivity | repeat constructor] ].
  - (* the long-press delay *)
    unfold step, touchableLongPress; unfold_ops; simpl.
    destruct (prs && onLongPress p && negb lp); simpl;
      (split; [rev_fields; split; assumption|]);
      first [ exists (@nil Callback); split; [symmetry; apply app_nil_r | apply Forall_nil]
            | eexists; split; [reflexivity | repeat constructor] ].
  - (* a layout change *)
    unfold step; unfold_ops; simpl.
    assert (Hi : incl S (S ++ [mkPos w h])) by (intros a Ha; apply in_or_app; left; exact Ha).
    split.
    + split; [reflexivity|]. split; [reflexivity|]. split; [reflexivity|].
      split; [apply in_or_app; right; left; reflexivity|]. split.
      * destruct H5 as [H5 | (r & Hr & Hsr)]; [left; exact H5|].
        right; exists r; split; [exact Hr | eapply sized_at_incl; eauto].
      * intros Hd; destruct (H6 Hd) as (r & Hr & Hsr).
        exists r; split; [exact Hr | eapply sized_at_incl; eauto].
    + (exists (@nil Callback); split; [symmetry; apply app_nil_r | apply Forall_nil]).
  - (* animateTo *)
    unfold step; destruct o' as [t|]; unfold_ops; simpl;
      (split; [rev_fields; split; assumption|]);
      (exists (@nil Callback); split; [symmetry; apply app_nil_r | apply Forall_nil]).
  - (* a frame of the spring *)
    unfold step; unfold_ops; simpl; destruct spr; simpl;
      (split; [rev_fields; split; assumption|]);
      (exists (@nil Callback); split; [symmetry; apply app_nil_r | apply Forall_nil]).
  - (* the end of the spring *)
    unfold step; unfold_ops; simpl; destruct spr; simpl;
      (split; [rev_fields; split; assumption|]);
      (exists (@nil Callback); split; [symmetry; apply app_nil_r | apply Forall_nil]).
  - (* shouldReverse set to true again: nothing happens *)
    unfold step; simpl.
    split; [rev_fields; split; assumption|].
    (exists (@nil Callback); split; [symmetry; apply app_nil_r | apply Forall_nil]).
Qed.

Lemma run_rev_inv (p : Props) (o : Position) (sb0 : option Rect)
    (evs : list Event) (S : list Position) (s : State) :
  ~ In (EvSetShouldReverse false) evs -> rev_inv p o sb0 S s ->
  rev_inv p o sb0 (S ++ layout_sizes evs) (run p s evs) /\
  exists cs, log (run p s evs) = log s ++ cs /\
    Forall (fun c => Forall (sized_at p o (S ++ layout_sizes evs)) (cb_rects c)) cs.
Proof.
  revert S s; induction evs as [|e evs IH]; intros S s Hin Hinv.
  - simpl; rewrite app_nil_r; split; [exact Hinv|].
    (exists (@nil Callback); split; [symmetry; apply app_nil_r | apply Forall_nil]).
  - rewrite run_cons.
    assert (He : e <> EvSetShouldReverse false)
      by (intros ->; apply Hin; left; reflexivity).
    destruct (step_rev_inv p o sb0 S s e He Hinv) as [G1 (cs1 & G2 & G3)].
    destruct (IH (S ++ layout_sizes [e]) (step p s e)) as [K1 (cs2 & K2 & K3)];
      [intros H; apply Hin; right; exact H | exact G1 |].
    assert (Eq : S ++ layout_sizes (e :: evs) = (S ++ layout_sizes [e]) ++ layout_sizes evs).
    { rewrite <- app_assoc; f_equal; simpl; rewrite app_nil_r; reflexivity. }
    rewrite Eq; split; [exact K1|].
    exists (cs1 ++ cs2); split.
    + rewrite K2, G2, app_assoc; reflexivity.
    + apply Forall_app; split; [|exact K3].
      eapply rects_incl; [|exact G3].
      intros a Ha; apply in_or_app; left; exact Ha.
Qed.

(** C10 (as stated, refuted): [shouldReverse] switched on after a drag
    removes the listener but does not reset [offsetFromStart]; the bounds
    query then reports the rectangle shifted by the earlier drag. *)
Lemma C10_counterexample :
  let s := run defaultProps (init defaultProps)
             [EvMove 3 0; EvMove 10 0; EvRelease; EvSetShouldReverse true] in
  sr s = true /\ listening s = false /\
  offsetFromStart s = mkPos 10 0 /\ left (getBounds defaultProps s) = 10 /\
  x defaultProps = 0.
Proof. vm_compute. repeat split. Qed.

(** C10 (amended): when [shouldReverse] is true at mount and never set to
    false afterwards, no pan listener is registered, [offsetFromStart]
    stays (0, 0), and the bounds query, every rectangle captured at a
    grant and every rectangle reported to [onDrag] / [onDragRelease] is the
    rectangle at [(x, y)] with a size the element had (its initial
    [renderSize] square or one measured by a layout event).  When
    [shouldReverse] turns true later (the machine idle), the listener is
    removed but [offsetFromStart] keeps its last mirrored value [o], and
    from then on, while it is not set back to false, the bounds query and
    every rectangle captured or reported is shifted by [o]. *)
Theorem C10_reverse_offset_frozen (p : Props) :
  (forall evs, shouldReverse p = true -> ~ In (EvSetShouldReverse false) evs ->
     let S := mkPos (renderSize p) (renderSize p) :: layout_sizes evs in
     let s := run p (init p) evs in
     listening s = false /\ offsetFromStart s = origin /\
     getBounds p s = mkRect (x p) (y p) (x p + px (childSize s)) (y p + py (childSize s)) /\
     In (childSize s) S /\
     (forall r, startBounds s = Some r -> sized_at p origin S r) /\
     Forall (fun c => Forall (sized_at p origin S) (cb_rects c)) (log s)) /\
  (forall s evs, sr s = false -> isDragging s = false ->
     ~ In (EvSetShouldReverse false) evs ->
     let o := offsetFromStart s in
     let S := childSize s :: layout_sizes evs in
     let s1 := step p s (EvSetShouldReverse true) in
     let s2 := run p s1 evs in
     listening s1 = false /\ offsetFromStart s1 = o /\
     listening s2 = false /\ offsetFromStart s2 = o /\
     getBounds p s2 = mkRect (x p + px o) (y p + py o)
                        (x p + px o + px (childSize s2)) (y p + py o + py (childSize s2)) /\
     In (childSize s2) S /\
     exists cs, log s2 = log s1 ++ cs /\
       Forall (fun c => Forall (sized_at p o S) (cb_rects c)) cs).
Proof.
  split.
  - intros evs Hsr Hin; cbv zeta.
    assert (Hi : rev_inv p origin None [mkPos (renderSize p) (renderSize p)] (init p) /\
                 log (init p) = []).
    { unfold init, runEffect, reversePosition, startSpring, set_spring;
        rewrite Hsr; simpl.
      split; [|reflexivity].
      split; [reflexivity|]. split; [reflexivity|]. split; [reflexivity|].
      split; [left; reflexivity|]. split; [left; reflexivity | discriminate]. }
    destruct Hi as [Hi Hl].
    destruct (run_rev_inv p origin None evs _ (init p) Hin Hi)
      as [(G1 & G2 & G3 & G4 & G5 & _) (cs & K1 & K2)].
    simpl app in *.
    split; [exact G2|]. split; [exact G3|]. split.
    + unfold getBounds; rewrite G3; simpl; rewrite !Z.add_0_r; reflexivity.
    + split; [exact G4|]. split.
      * intros r Hr; destruct G5 as [G5 | (r' & Hr' & Hs')]; [congruence|].
        rewrite Hr in Hr'; injection Hr' as <-; exact Hs'.
      * rewrite K1, Hl; exact K2.
  - intros s evs Hsr Hd Hin; cbv zeta.
    assert (Hi : rev_inv p (offsetFromStart s) (startBounds s) [childSize s]
                   (step p s (EvSetShouldReverse true)) /\
                 listening (step p s (EvSetShouldReverse true)) = false /\
                 offsetFromStart (step p s (EvSetShouldReverse true)) = offsetFromStart s).
    { destruct s as [pa spr lis ofs cs sb dr srv prs lg rf lp]; simpl in *; subst.
      unfold step; simpl; unfold_ops; simpl.
      split; [|split; reflexivity].
      split; [reflexivity|]. split; [reflexivity|]. split; [reflexivity|].
      split; [left; reflexivity|]. split; [left; reflexivity | discriminate]. }
    destruct Hi as (Hi & L1 & O1).
    destruct (run_rev_inv p _ _ evs _ _ Hin Hi)
      as [(G1 & G2 & G3 & G4 & _) (cs & K1 & K2)].
    simpl app in *.
    split; [exact L1|]. split; [exact O1|]. split; [exact G2|]. split; [exact G3|].
    split; [unfold getBounds; rewrite G3; reflexivity|].
    split; [exact G4|].
    exists cs; split; [exact K1 | exact K2].
Qed.

(** Witness of [C10_reverse_offset_frozen]: a reversing element at (5, 7)
    dragged by (50, 20) and released; and an element dragged by (10, 0)
    before [shouldReverse] turns true, then dragged again. *)
Lemma C10_reverse_offset_frozen_witness :
  let p := mkProps 5 7 None None None None true false None true false 36 true in
  getBounds p (run p (init p) [EvMove 3 0; EvMove 50 20; EvRelease]) = mkRect 5 7 41 43 /\
  offsetFromStart
    (run defaultProps
       (step defaultProps
          (run defaultProps (init defaultProps) [EvMove 3 0; EvMove 10 0; EvRelease])
          (EvSetShouldReverse true))
       [EvMove 3 0; EvMove 50 20; EvRelease]) = mkPos 10 0.
Proof.
  cbv zeta.
  destruct (C10_reverse_offset_frozen (mkProps 5 7 None None None None true false None true false 36 true))
    as [H1 _].
  destruct (C10_reverse_offset_frozen defaultProps) as [_ H2].
  split.
  - destruct (H1 [EvMove 3 0; EvMove 50 20; EvRelease] eq_refl) as (_ & _ & H & _).
    + simpl; intuition discriminate.
    + rewrite H; reflexivity.
  - destruct (H2 (run defaultProps (init defaultProps) [EvMove 3 0; EvMove 10 0; EvRelease])
                 [EvMove 3 0; EvMove 50 20; EvRelease] eq_refl eq_refl)
      as (_ & _ & _ & H & _).
    + simpl; intuition discriminate.
    + rewrite H; reflexivity.
Defined.
(** A move while dragging, without reversal, writes the clamped delta into
    the pan value, keeps its offset, and mirrors value + offset into
    [offsetFromStart]. *)
Lemma drag_move_step (p : Props) (s : State) (dx dy : Z) (sb : Rect) :
  isDragging s = true -> sr s = false -> listening s = true ->
  startBounds s = Some sb ->
  let s' := step p s (EvMove dx dy) in
  isDragging s' = true /\ sr s' = false /\ listening s' = true /\
  startBounds s' = Some sb /\ childSize s' = childSize s /\
  ox (pan s') = ox (pan s) /\ oy (pan s') = oy (pan s) /\
  vx (pan s') = px (handleOnDrag_change p sb dx dy) /\
  vy (pan s') = py (handleOnDrag_change p sb dx dy) /\
  offsetFromStart s' = pan_get (pan s').
Proof.
  destruct s as [pa spr lis ofs cs sb0 dr srv prs lg rf lp]; simpl.
  intros -> -> -> ->.
  unfold step; unfold_ops; simpl.
  repeat split.
Qed.

Lemma drag_moves (p : Props) (ds : list (Z * Z)) (s : State) (sb : Rect) :
  isDragging s = true -> sr s = false -> listening s = true ->
  startBounds s = Some sb -> ox (pan s) = 0 -> oy (pan s) = 0 ->
  let s' := run p s (moves ds) in
  isDragging s' = true /\ sr s' = false /\ listening s' = true /\
  startBounds s' = Some sb /\ childSize s' = childSize s /\
  ox (pan s') = 0 /\ oy (pan s') = 0.
Proof.
  revert s; induction ds as [|[dx dy] ds IH]; intros s H1 H2 H3 H4 H5 H6.
  - simpl; auto 10.
  - cbv zeta; simpl moves; rewrite run_cons.
    destruct (drag_move_step p s dx dy sb H1 H2 H3 H4)
      as (G1 & G2 & G3 & G4 & G5 & G6 & G7 & _).
    destruct (IH (step p s (EvMove dx dy)) G1 G2 G3 G4)
      as (K1 & K2 & K3 & K4 & K5 & K6 & K7); try congruence.
    repeat split; congruence.
Qed.

(** C4: without reversal, a drag from base (0, 0) whose last clamped delta
    is (10, -5), followed by its release, leaves the pan with the merged
    value (10, -5) and no offset, [offsetFromStart] at (10, -5) and the
    bounds query at (10, -5); the next grant takes (10, -5) as the pan's
    offset (its base) with a (0, 0) value, and the bounds are unchanged. *)
Theorem C4_commit_in_place (p : Props) (dx0 dy0 dx dy : Z) (ds : list (Z * Z)) :
  x p = 0 -> y p = 0 -> shouldReverse p = false ->
  shouldStartDrag p dx0 dy0 = true ->
  handleOnDrag_change p (mkRect 0 0 (renderSize p) (renderSize p)) dx dy = mkPos 10 (-5) ->
  let s := run p (init p) (EvMove dx0 dy0 :: moves ds ++ [EvMove dx dy; EvRelease]) in
  isDragging s = false /\
  pan s = mkAnim 10 (-5) 0 0 /\
  offsetFromStart s = mkPos 10 (-5) /\
  getBounds p s = mkRect 10 (-5) (10 + renderSize p) (-5 + renderSize p) /\
  pan (grant p s) = mkAnim 0 0 10 (-5) /\
  getBounds p (grant p s) = getBounds p s.
Proof.
  intros Hx Hy Hsr Hst Hc; cbv zeta.
  rewrite run_cons, run_app.
  set (s1 := step p (init p) (EvMove dx0 dy0)).
  assert (E1 : isDragging s1 = true /\ sr s1 = false /\ listening s1 = true /\
               startBounds s1 = Some (mkRect 0 0 (renderSize p) (renderSize p)) /\
               childSize s1 = mkPos (renderSize p) (renderSize p) /\
               ox (pan s1) = 0 /\ oy (pan s1) = 0).
  { subst s1; unfold init, runEffect; rewrite Hsr; simpl.
    unfold step; simpl; rewrite Hst.
    unfold grant, onPanResponderGrant, getBounds; unfold_ops; simpl.
    rewrite Hx, Hy; repeat split. }
  destruct E1 as (A1 & A2 & A3 & A4 & A5 & A6 & A7).
  destruct (drag_moves p ds s1 _ A1 A2 A3 A4 A6 A7)
    as (B1 & B2 & B3 & B4 & B5 & B6 & B7).
  set (s2 := run p s1 (moves ds)) in *.
  rewrite run_cons.
  destruct (drag_move_step p s2 dx dy _ B1 B2 B3 B4)
    as (C1 & C2 & C3 & C4 & C5 & C6 & C7 & C8 & C9 & C10).
  rewrite Hc in C8, C9; cbn [px py] in C8, C9.
  set (s3 := step p s2 (EvMove dx dy)) in *.
  unfold run; simpl fold_left.
  destruct s3 as [[v1 v2 o1 o2] spr lis ofs cs sb dr srv prs lg rf lp];
    cbn [pan vx vy ox oy listening offsetFromStart childSize startBounds isDragging sr]
      in C1, C2, C3, C4, C5, C6, C7, C8, C9, C10.
  rewrite B6 in C6; rewrite B7 in C7; rewrite B5, A5 in C5.
  subst dr srv lis sb cs v1 v2 o1 o2 ofs.
  unfold step, onPanResponderRelease, pan_get; unfold_ops; simpl.
  destruct (onDragRelease p); simpl;
    unfold grant, onPanResponderGrant, getBounds, pan_get; unfold_ops; simpl;
    rewrite ?A5, ?Hx, ?Hy; repeat split; destruct prs; reflexivity.
Qed.

(** Witness of [C4_commit_in_place] at the default props: a grant by
    (3, 0), an intermediate move, and a last move by (10, -5). *)
Lemma C4_commit_in_place_witness :
  getBounds defaultProps
    (run defaultProps (init defaultProps)
       (EvMove 3 0 :: moves [(4, 4)] ++ [EvMove 10 (-5); EvRelease])) =
    mkRect 10 (-5) 46 31.
Proof.
  exact (proj1 (proj2 (proj2 (proj2
    (C4_commit_in_place defaultProps 3 0 10 (-5) [(4, 4)]
       eq_refl eq_refl eq_refl eq_refl eq_refl))))).
Defined.

(** ** Further properties of the component *)

(** The pan listener keeps [offsetFromStart] equal to the pan's value plus
    offset ("Always set to xy value of pan") through every handler, as
    long as [shouldReverse] is false. *)
Lemma step_mirror (p : Props) (s : State) (e : Event) :
  e <> EvSetShouldReverse true ->
  sr s = false -> listening s = true -> offsetFromStart s = pan_get (pan s) ->
  let s' := step p s e in
  sr s' = false /\ listening s' = true /\ offsetFromStart s' = pan_get (pan s').
Proof.
  destruct s as [[v1 v2 o1 o2] spr lis ofs cs sb dr srv prs lg rf lp]; simpl.
  intros He -> -> ->.
  destruct e as [| dx dy | | | w h | o | v | | [|]]; unfold step; unfold_ops; simpl;
    split_ifs; simpl; try (exfalso; apply He; reflexivity);
    unfold pan_get; simpl; repeat split; try (f_equal; lia).
Qed.

Theorem X_mirror_invariant (p : Props) (evs : list Event) :
  shouldReverse p = false -> ~ In (EvSetShouldReverse true) evs ->
  let s := run p (init p) evs in
  listening s = true /\ offsetFromStart s = pan_get (pan s).
Proof.
  intros Hsr Hin; cbv zeta.
  assert (H : forall evs s, ~ In (EvSetShouldReverse true) evs ->
            sr s = false -> listening s = true -> offsetFromStart s = pan_get (pan s) ->
            sr (run p s evs) = false /\ listening (run p s evs) = true /\
            offsetFromStart (run p s evs) = pan_get (pan (run p s evs))).
  { induction evs0 as [|e es IH]; intros s0 Hi H1 H2 H3; [auto|].
    rewrite run_cons.
    destruct (step_mirror p s0 e) as (G1 & G2 & G3); auto.
    - intros ->; apply Hi; left; reflexivity.
    - apply IH; auto. intros Hx; apply Hi; right; exact Hx. }
  assert (Hi : sr (init p) = false /\ listening (init p) = true /\
               offsetFromStart (init p) = pan_get (pan (init p))).
  { unfold init, runEffect, set_listening; rewrite Hsr; simpl; auto. }
  destruct Hi as (I1 & I2 & I3).
  destruct (H evs (init p) Hin I1 I2 I3) as (_ & G2 & G3); auto.
Qed.

(** Witness of [X_mirror_invariant]: a drag, a release and a settled
    [animateTo] spring. *)
Lemma X_mirror_invariant_witness :
  offsetFromStart (run defaultProps (init defaultProps)
    [EvMove 3 0; EvMove 7 (-2); EvRelease; EvAnimateTo (Some (mkPos 20 20)); EvSpringSettle])
  = mkPos 20 20.
Proof.
  destruct (X_mirror_invariant defaultProps
    [EvMove 3 0; EvMove 7 (-2); EvRelease; EvAnimateTo (Some (mkPos 20 20)); EvSpringSettle]
    eq_refl) as [_ H].
  - simpl; intuition discriminate.
  - rewrite H; reflexivity.
Defined.

(** While dragging, a move or a layout change keeps the drag and its start
    rectangle, and a move writes the clamped delta into the pan value. *)
Lemma step_move_or_layout (p : Props) (s : State) (e : Event) (sb : Rect) :
  move_or_layout e = true -> isDragging s = true -> startBounds s = Some sb ->
  isDragging (step p s e) = true /\ startBounds (step p s e) = Some sb /\
  (forall dx dy, e = EvMove dx dy ->
     vx (pan (step p s e)) = px (handleOnDrag_change p sb dx dy) /\
     vy (pan (step p s e)) = py (handleOnDrag_change p sb dx dy)).
Proof.
  destruct s as [pa spr lis ofs cs sb0 dr srv prs lg rf lp]; simpl.
  intros He -> ->.
  destruct e as [| dx dy | | | w h | o | v | | b]; try discriminate;
    unfold step; unfold_ops; simpl; split_ifs; simpl;
    (split; [reflexivity | split; [reflexivity |]]);
    intros dx' dy' Hq; first [discriminate Hq | injection Hq as <- <-; split; reflexivity].
Qed.

(** A move is clamped against the rectangle captured at the grant and its
    own delta: moves and layout changes before it in the same drag change
    nothing of its result (both modes). *)
Theorem X_move_uses_grant_rect (p : Props) (s : State) (sb : Rect)
    (evs : list Event) (dx dy : Z) :
  isDragging s = true -> startBounds s = Some sb ->
  forallb move_or_layout evs = true ->
  let s' := run p s (evs ++ [EvMove dx dy]) in
  isDragging s' = true /\ startBounds s' = Some sb /\
  vx (pan s') = px (handleOnDrag_change p sb dx dy) /\
  vy (pan s') = py (handleOnDrag_change p sb dx dy).
Proof.
  intros Hd Hsb Hall; cbv zeta; rewrite run_app.
  assert (H : forall evs s, forallb move_or_layout evs = true ->
            isDragging s = true -> startBounds s = Some sb ->
            isDragging (run p s evs) = true /\ startBounds (run p s evs) = Some sb).
  { induction evs0 as [|e es IH]; intros s0 Ha H1 H2; [auto|].
    simpl in Ha; apply andb_prop in Ha as [Ha1 Ha2].
    rewrite run_cons.
    destruct (step_move_or_layout p s0 e sb Ha1 H1 H2) as (G1 & G2 & _).
    apply IH; auto. }
  destruct (H evs s Hall Hd Hsb) as [K1 K2].
  simpl.
  destruct (step_move_or_layout p (run p s evs) (EvMove dx dy) sb eq_refl K1 K2)
    as (G1 & G2 & G3).
  destruct (G3 dx dy eq_refl). auto.
Qed.

(** Witness of [X_move_uses_grant_rect]: with [maxX = 100] a move by 90,
    a layout change to 50 and a move by 80 give 64 (36-wide at grant). *)
Lemma X_move_uses_grant_rect_witness :
  let p := maxX100Props false in
  let s := run p (init p) [EvMove 3 0] in
  vx (pan (run p s ([EvMove 90 0; EvLayout 50 50] ++ [EvMove 80 0]))) = 64.
Proof.
  cbv zeta.
  destruct (X_move_uses_grant_rect (maxX100Props false)
              (run (maxX100Props false) (init (maxX100Props false)) [EvMove 3 0])
              (mkRect 0 0 36 36) [EvMove 90 0; EvLayout 50 50] 80 0
              eq_refl eq_refl eq_refl) as (_ & _ & H & _).
  rewrite H; reflexivity.
Defined.

Lemma run_moves_dragging (p : Props) (ds : list (Z * Z)) (s : State) (sb : Rect) :
  isDragging s = true -> startBounds s = Some sb ->
  isDragging (run p s (moves ds)) = true /\
  startBounds (run p s (moves ds)) = Some sb /\
  exists cs, log (run p s (moves ds)) = log s ++ cs /\
    Forall (fun c => c <> CbShortPressRelease /\ c <> CbRelease false) cs.
Proof.
  revert s; induction ds as [|[dx dy] ds IH]; intros s H1 H2.
  - simpl; split; [|split]; auto. exists []; split; [symmetry; apply app_nil_r | constructor].
  - simpl moves; rewrite run_cons.
    assert (L : exists r, log (step p s (EvMove dx dy)) = log s ++ [CbDrag dx dy sb r]).
    { exists (getBounds p (setValue s (handleOnDrag_change p sb dx dy))).
      destruct s as [pa spr lis ofs cs sb0 dr srv prs lg rf lp]; simpl in *; subst.
      destruct lis; reflexivity. }
    destruct L as [r Hr].
    destruct (step_move_or_layout p s (EvMove dx dy) sb eq_refl H1 H2) as (G1 & G2 & _).
    destruct (IH _ G1 G2) as (K1 & K2 & cs & K3 & K4).
    split; [exact K1|]. split; [exact K2|].
    exists (CbDrag dx dy sb r :: cs); split.
    + rewrite K3, Hr, <- app_assoc; reflexivity.
    + constructor; [split; discriminate | exact K4].
Qed.

(** A gesture that crosses the threshold (press, a grant move, further
    moves, release) never fires the short-press callback nor
    [onRelease(e, false)]; its release fires [onDragRelease] with the grant
    rectangle and the current one, then [onRelease(e, true)], when
    [onDragRelease] is truthy. *)
Theorem X_drag_gesture_log (p : Props) (s : State) (dx0 dy0 : Z) (ds : list (Z * Z)) :
  isDragging s = false -> pressed s = false -> shouldStartDrag p dx0 dy0 = true ->
  let s' := run p s ([EvPressIn; EvMove dx0 dy0] ++ moves ds ++ [EvRelease]) in
  isDragging s' = false /\ pressed s' = false /\
  exists cs, log s' = log s ++ cs ++
      (if onDragRelease p
       then [CbDragRelease (startBounds s') (getBounds p s'); CbRelease true] else []) /\
    Forall (fun c => c <> CbShortPressRelease /\ c <> CbRelease false) cs.
Proof.
  intros Hd Hp Hs; cbv zeta.
  rewrite run_app, run_app.
  set (s1 := run p s [EvPressIn; EvMove dx0 dy0]).
  assert (E1 : isDragging s1 = true /\ pressed s1 = false /\
               startBounds s1 = Some (getBounds p s) /\
               exists cs, log s1 = log s ++ cs /\
                 Forall (fun c => c <> CbShortPressRelease /\ c <> CbRelease false) cs).
  { subst s1. destruct s as [pa spr lis ofs cs sb dr srv prs lg rf lp]; simpl in Hd, Hp; subst.
    unfold run; simpl.
    destruct (touchable_active p); unfold_ops; simpl; rewrite Hs;
      unfold grant, onPanResponderGrant, getBounds; unfold_ops; simpl;
      destruct srv, lis; simpl; (split; [reflexivity | split; [reflexivity | split; [reflexivity|]]]).
    all: first
      [ exists [CbPressIn; CbPressOut]; split;
          [rewrite <- app_assoc; reflexivity
          | repeat constructor; discriminate]
      | exists []; split; [symmetry; apply app_nil_r | constructor] ]. }
  destruct E1 as (A1 & A2 & A3 & cs1 & A4 & A5).
  destruct (run_moves_dragging p ds s1 _ A1 A3) as (B1 & B2 & cs2 & B3 & B4).
  assert (B5 : pressed (run p s1 (moves ds)) = false).
  { clearbody s1; clear - A2. revert s1 A2; induction ds as [|[a b] ds IH]; intros s1 A2; [exact A2|].
    simpl moves; rewrite run_cons; apply IH.
    destruct s1 as [pa spr lis ofs cs sb dr srv prs lg rf lp]; simpl in *; subst.
    unfold step; unfold_ops; simpl; split_ifs; simpl; reflexivity. }
  set (s2 := run p s1 (moves ds)) in *.
  unfold run at 1; simpl fold_left.
  destruct s2 as [pa spr lis ofs cs sb dr srv prs lg rf lp]; simpl in B1, B2, B3, B5; subst.
  unfold step; simpl; unfold onPanResponderRelease; unfold_ops; simpl.
  split; [destruct srv, (onDragRelease p); reflexivity|].
  split; [destruct srv, (onDragRelease p); reflexivity|].
  exists (cs1 ++ cs2); split.
  - destruct srv, (onDragRelease p); simpl;
      rewrite A4, <- !app_assoc, ?app_nil_r; reflexivity.
  - apply Forall_app; split; assumption.
Qed.

(** Witness of [X_drag_gesture_log] at mount with the default props. *)
Lemma X_drag_gesture_log_witness :
  ~ In CbShortPressRelease
      (log (run defaultProps (init defaultProps)
              ([EvPressIn; EvMove 3 0] ++ moves [(5, 5)] ++ [EvRelease]))).
Proof.
  destruct (X_drag_gesture_log defaultProps (init defaultProps) 3 0 [(5, 5)]
              eq_refl eq_refl eq_refl) as (_ & _ & cs & H & F).
  rewrite H. change (log (init defaultProps)) with (@nil Callback).
  simpl app. intros Hin.
  apply in_app_or in Hin as [Hin | Hin].
  - apply (proj1 (proj1 (Forall_forall _ cs) F _ Hin)); reflexivity.
  - simpl in Hin; intuition discriminate.
Defined.

(** A bound of 0 is enforced by the drag clamp of [handleOnDrag], yet the
    debug overlay treats it as absent: where the overlay is drawn its left
    side sits at -9999, and when no other bound is truthy it is not drawn
    at all. *)
Theorem X_zero_bound_hidden (width height : Z) (rb : RawBounds) (p : Props) :
  bounds_of rb p -> rminX rb = Some (JFin 0) ->
  (forall st, getDebugView width height rb = Some st -> dbg_left st = JFin (-9999)) /\
  (truthy (rmaxX rb) = false -> truthy (rminY rb) = false -> truthy (rmaxY rb) = false ->
     getDebugView width height rb = None) /\
  (forall sb dx dy, 0 <= left sb + px (handleOnDrag_change p sb dx dy)).
Proof.
  intros (Hb1 & _) Hr.
  split; [|split].
  - unfold getDebugView; rewrite Hr; simpl.
    destruct (_ || _); simpl; [|discriminate].
    intros st H; injection H as <-; reflexivity.
  - intros H1 H2 H3; unfold getDebugView; rewrite Hr, H1, H2, H3; reflexivity.
  - intros sb dx dy.
    unfold handleOnDrag_change; simpl.
    destruct (clamp_axis_edges (minX p) (maxX p) (left sb) (right sb) dx) as [H _].
    apply H; rewrite Hb1, Hr; reflexivity.
Qed.

(** Witness of [X_zero_bound_hidden] in a 400 by 800 window: [minX = 0]
    alone, and [minX = 0] with [maxX = Infinity], whose overlay is drawn. *)
Lemma X_zero_bound_hidden_witness :
  let rb := mkRaw (Some (JFin 0)) None None None in
  let p := mkProps 0 0 (Some 0) None None None false false None true false 36 true in
  getDebugView 400 800 rb = None /\
  0 <= left (mkRect 10 0 46 36) + px (handleOnDrag_change p (mkRect 10 0 46 36) (-50) 0) /\
  getDebugView 400 800 (mkRaw (Some (JFin 0)) None (Some JPosInf) None) =
    Some (mkDebug (JFin (-9999)) JNegInf (JFin (-9999)) (JFin (-9999))).
Proof.
  cbv zeta.
  destruct (X_zero_bound_hidden 400 800 (mkRaw (Some (JFin 0)) None None None)
              (mkProps 0 0 (Some 0) None None None false false None true false 36 true))
    as (_ & H2 & H3); [repeat split | reflexivity |].
  split; [apply H2; reflexivity|].
  split; [apply H3|].
  reflexivity.
Defined.






(** Without reversal, while the listener mirrors the pan, neither the grant
    ([setOffset(offsetFromStart)] then [setValue(0)]) nor the release
    ([flattenOffset]) changes the displayed value + offset or the bounds
    query: the element does not jump when a drag starts or ends.  After the
    release the pan has no offset left. *)
Theorem X_no_jump_at_grant_and_release (p : Props) (s : State) :
  sr s = false -> listening s = true -> offsetFromStart s = pan_get (pan s) ->
  (isDragging s = false ->
     pan_get (pan (grant p s)) = pan_get (pan s) /\
     getBounds p (grant p s) = getBounds p s) /\
  (isDragging s = true ->
     pan_get (pan (step p s EvRelease)) = pan_get (pan s) /\
     getBounds p (step p s EvRelease) = getBounds p s /\
     ox (pan (step p s EvRelease)) = 0 /\ oy (pan (step p s EvRelease)) = 0).
Proof.
  destruct s as [[v1 v2 o1 o2] spr lis [f1 f2] cs sb dr srv prs lg rf lp]; simpl.
  intros -> -> H; injection H as -> ->.
  split; intros ->.
  - unfold grant, onPanResponderGrant, getBounds, pan_get; unfold_ops; simpl.
    destruct prs; simpl; split; reflexivity.
  - unfold step; simpl; unfold onPanResponderRelease, getBounds, pan_get; unfold_ops; simpl.
    destruct (onDragRelease p); simpl;
      (split; [f_equal; lia|]); (split; [reflexivity|]); split; reflexivity.
Qed.

(** Witness of [X_no_jump_at_grant_and_release]: a second drag of an
    element released at (10, -5). *)
Lemma X_no_jump_at_grant_and_release_witness :
  let s := run defaultProps (init defaultProps) [EvMove 3 0; EvMove 10 (-5); EvRelease] in
  getBounds defaultProps (grant defaultProps s) = getBounds defaultProps s.
Proof.
  cbv zeta.
  apply (proj1 (X_no_jump_at_grant_and_release defaultProps
    (run defaultProps (init defaultProps) [EvMove 3 0; EvMove 10 (-5); EvRelease])
    eq_refl eq_refl eq_refl) eq_refl).
Defined.
